(** * bhavi-stream backend: the component catalog and its four endpoints

    A shallow embedding of [backend/app.py]: the module-level [COMPONENTS]
    dictionary and the Flask handlers [get_components], [get_component],
    [save_schematic] and [get_schematic].

    Python values are embedded as a small JSON-like datatype; a [dict] is an
    association list in insertion order.  Handlers are state-passing
    functions over the module globals and may raise. *)

From Stdlib Require Import ZArith List Ascii String Bool.
Import ListNotations.
Open Scope string_scope.
Open Scope Z_scope.

(** ** Python values *)

(** The values that occur in the module: [None], booleans, integers,
    strings, lists and string-keyed dictionaries. *)
#[warnings="-register-all"]
Inductive pyval : Type :=
| PNone
| PBool (b : bool)
| PInt (z : Z)
| PStr (s : string)
| PList (l : list pyval)
| PDict (d : list (string * pyval)).

(** ** Dictionaries *)

Module Dict.
Section Ops.
Context {A : Type}.

Definition t := list (string * A).

(** [d.get(k)] *)
Fixpoint get (d : t) (k : string) : option A :=
  match d with
  | [] => None
  | (k', v) :: d' => if String.eqb k k' then Some v else get d' k
  end.

(** [k in d] *)
Fixpoint mem (d : t) (k : string) : bool :=
  match d with
  | [] => false
  | (k', _) :: d' => if String.eqb k k' then true else mem d' k
  end.

(** [d[k] = v]: an existing key keeps its position, a new key is appended. *)
Fixpoint set (d : t) (k : string) (v : A) : t :=
  match d with
  | [] => [(k, v)]
  | (k', v') :: d' =>
      if String.eqb k k' then (k', v) :: d' else (k', v') :: set d' k v
  end.

(** A dictionary display [{k1: v1, ..., kn: vn}] inserts its items from
    left to right. *)
Definition literal (items : list (string * A)) : t :=
  fold_left (fun d kv => set d (fst kv) (snd kv)) items [].

Definition keys (d : t) : list string := map fst d.
Definition values (d : t) : list A := map snd d.
End Ops.
Arguments t : clear implicits.
End Dict.

(** Field access on a value that is expected to be a dictionary. *)
Definition field (v : pyval) (k : string) : option pyval :=
  match v with
  | PDict d => Dict.get d k
  | _ => None
  end.

(** Shorthand for the displays of the source. *)
Definition dict (items : list (string * pyval)) : pyval :=
  PDict (Dict.literal items).
Definition strs (l : list string) : pyval := PList (map PStr l).

(** ** Exceptions *)

(** [KeyError] is raised by a subscript on a missing key; [BadRequest] and
    [UnsupportedMediaType] are the HTTP exceptions that
    [request.get_json()] raises and that Flask answers with 400 and 415. *)
Inductive exn : Type :=
| KeyError (k : string)
| BadRequest
| UnsupportedMediaType.

Inductive result (A : Type) : Type :=
| Ok (a : A)
| Raise (e : exn).
Arguments Ok {A} a.
Arguments Raise {A} e.

Definition bind {A B} (m : result A) (f : A -> result B) : result B :=
  match m with
  | Ok a => f a
  | Raise e => Raise e
  end.

Notation "x <- m ;; k" := (bind m (fun x => k))
  (at level 61, m at next level, right associativity).

(** [d[k]] raises [KeyError] on a missing key. *)
Definition subscript (d : Dict.t pyval) (k : string) : result pyval :=
  match Dict.get d k with
  | Some v => Ok v
  | None => Raise (KeyError k)
  end.

(** ** The catalog *)

Definition tank : pyval :=
  dict [
    ("id", PStr "tank");
    ("name", PStr "Storage Tank");
    ("category", PStr "vessel");
    ("icon", PStr "⬜");
    ("parameters", dict [
      ("volume", dict [("value", PNone); ("unit", PStr "m³"); ("required", PBool true)]);
      ("pressure_rating", dict [("value", PNone); ("unit", PStr "bar"); ("required", PBool true)]);
      ("temperature_rating", dict [("value", PNone); ("unit", PStr "°C"); ("required", PBool true)]);
      ("material", dict [("value", PStr "carbon_steel");
                         ("options", strs ["carbon_steel"; "stainless_steel"; "plastic"]);
                         ("required", PBool true)])
    ]);
    ("connections", dict [
      ("inlet", dict [("type", PStr "pipe"); ("direction", PStr "in")]);
      ("outlet", dict [("type", PStr "pipe"); ("direction", PStr "out")]);
      ("vent", dict [("type", PStr "pipe"); ("direction", PStr "out")])
    ]);
    ("constraints", strs [
      "volume > 0";
      "pressure_rating > operating_pressure";
      "temperature_rating > operating_temperature"
    ])
  ].

Definition control_valve : pyval :=
  dict [
    ("id", PStr "control_valve");
    ("name", PStr "Control Valve");
    ("category", PStr "valve");
    ("icon", PStr "◊");
    ("parameters", dict [
      ("cv", dict [("value", PNone); ("unit", PStr "m³/h"); ("required", PBool true)]);
      ("pressure_rating", dict [("value", PNone); ("unit", PStr "bar"); ("required", PBool true)]);
      ("fail_action", dict [("value", PStr "fail_closed");
                            ("options", strs ["fail_closed"; "fail_open"]);
                            ("required", PBool true)]);
      ("actuator_type", dict [("value", PStr "pneumatic");
                              ("options", strs ["pneumatic"; "electric"; "hydraulic"]);
                              ("required", PBool true)]);
      ("signal_range", dict [("value", PStr "4-20mA");
                             ("options", strs ["4-20mA"; "0-10V"; "3-15psi"]);
                             ("required", PBool true)])
    ]);
    ("connections", dict [
      ("inlet", dict [("type", PStr "pipe"); ("direction", PStr "in")]);
      ("outlet", dict [("type", PStr "pipe"); ("direction", PStr "out")]);
      ("control_signal", dict [("type", PStr "signal"); ("direction", PStr "in")])
    ]);
    ("constraints", strs [
      "cv > 0";
      "pressure_rating >= upstream_pressure";
      "actuator_type matches signal_type"
    ])
  ].

Definition pump : pyval :=
  dict [
    ("id", PStr "pump");
    ("name", PStr "Centrifugal Pump");
    ("category", PStr "rotating_equipment");
    ("icon", PStr "⊕");
    ("parameters", dict [
      ("flow_rate", dict [("value", PNone); ("unit", PStr "m³/h"); ("required", PBool true)]);
      ("head", dict [("value", PNone); ("unit", PStr "m"); ("required", PBool true)]);
      ("power", dict [("value", PNone); ("unit", PStr "kW"); ("required", PBool true)]);
      ("efficiency", dict [("value", PInt 75); ("unit", PStr "%"); ("required", PBool false)]);
      ("npsh_required", dict [("value", PNone); ("unit", PStr "m"); ("required", PBool true)])
    ]);
    ("connections", dict [
      ("suction", dict [("type", PStr "pipe"); ("direction", PStr "in")]);
      ("discharge", dict [("type", PStr "pipe"); ("direction", PStr "out")]);
      ("power", dict [("type", PStr "electrical"); ("direction", PStr "in")])
    ]);
    ("constraints", strs [
      "flow_rate > 0";
      "head > 0";
      "npsh_available > npsh_required"
    ])
  ].

Definition level_controller : pyval :=
  dict [
    ("id", PStr "level_controller");
    ("name", PStr "Level Controller");
    ("category", PStr "instrument");
    ("icon", PStr "LC");
    ("parameters", dict [
      ("measurement_range", dict [("value", PNone); ("unit", PStr "m"); ("required", PBool true)]);
      ("control_mode", dict [("value", PStr "PI");
                             ("options", strs ["P"; "PI"; "PID"]);
                             ("required", PBool true)]);
      ("output_signal", dict [("value", PStr "4-20mA");
                              ("options", strs ["4-20mA"; "0-10V"; "3-15psi"]);
                              ("required", PBool true)]);
      ("setpoint", dict [("value", PNone); ("unit", PStr "m"); ("required", PBool true)])
    ]);
    ("connections", dict [
      ("measurement", dict [("type", PStr "signal"); ("direction", PStr "in")]);
      ("output", dict [("type", PStr "signal"); ("direction", PStr "out")])
    ]);
    ("constraints", strs [
      "setpoint within measurement_range";
      "output_signal compatible with actuator"
    ])
  ].

Definition pipe : pyval :=
  dict [
    ("id", PStr "pipe");
    ("name", PStr "Pipe");
    ("category", PStr "piping");
    ("icon", PStr "─");
    ("parameters", dict [
      ("diameter", dict [("value", PNone); ("unit", PStr "mm"); ("required", PBool true)]);
      ("material", dict [("value", PStr "carbon_steel");
                         ("options", strs ["carbon_steel"; "stainless_steel"; "pvc"]);
                         ("required", PBool true)]);
      ("pressure_rating", dict [("value", PNone); ("unit", PStr "bar"); ("required", PBool true)]);
      ("length", dict [("value", PNone); ("unit", PStr "m"); ("required", PBool false)])
    ]);
    ("connections", dict [
      ("inlet", dict [("type", PStr "pipe"); ("direction", PStr "in")]);
      ("outlet", dict [("type", PStr "pipe"); ("direction", PStr "out")])
    ]);
    ("constraints", strs [
      "diameter > 0";
      "pressure_rating >= system_pressure"
    ])
  ].

(** The module global [COMPONENTS], keyed by component type id. *)
Definition COMPONENTS : Dict.t pyval :=
  Dict.literal [
    ("tank", tank);
    ("control_valve", control_valve);
    ("pump", pump);
    ("level_controller", level_controller);
    ("pipe", pipe)
  ].

(** ** Flask plumbing *)

(** A response: the status code and the value that is serialised as the
    JSON body. *)
Record Response : Type := mkResponse { status : Z; body : pyval }.

(** [jsonify(v)] answers 200 with [v] as body. *)
Definition jsonify (v : pyval) : Response := {| status := 200; body := v |}.

(** A view returning [(response, code)] overrides the status code. *)
Definition with_status (r : Response) (code : Z) : Response :=
  {| status := code; body := body r |}.

(** A POST request whose body [request.get_json()] has returned: the
    parsed JSON body. *)
Record Request : Type := mkRequest { json : pyval }.
Definition get_json (request : Request) : pyval := json request.

(** A POST as it arrives, before the body is read: the content type says
    JSON and the body parses, or it says JSON and the body does not parse,
    or it says something else. *)
Inductive Posted : Type :=
| JsonBody (payload : pyval)
| MalformedBody
| OtherContentType.

(** [request.get_json()] with its default arguments on an arriving POST:
    the parsed body, 400 on a body that does not parse, 415 on a content
    type other than JSON. *)
Definition request_get_json (posted : Posted) : result pyval :=
  match posted with
  | JsonBody payload => Ok payload
  | MalformedBody => Raise BadRequest
  | OtherContentType => Raise UnsupportedMediaType
  end.

(** The mutable state of the process visible to the handlers: the module
    global.  The module keeps no schematic store. *)
Record State : Type := mkState { g_COMPONENTS : Dict.t pyval }.

Definition startup : State := {| g_COMPONENTS := COMPONENTS |}.

(** A view function maps the state to an outcome and the next state. *)
Definition view : Type := State -> result Response * State.

(** ** The handlers *)

(** [GET /api/components] *)
Definition get_components : view := fun st =>
  (Ok (jsonify (PDict (g_COMPONENTS st))), st).

(** [GET /api/components/<component_id>] *)
Definition get_component (component_id : string) : view := fun st =>
  if Dict.mem (g_COMPONENTS st) component_id then
    (c <- subscript (g_COMPONENTS st) component_id ;;
     Ok (jsonify c), st)
  else
    (Ok (with_status (jsonify (dict [("error", PStr "Component not found")])) 404), st).

(** [POST /api/schematic] *)
Definition save_schematic (request : Request) : view := fun st =>
  let schematic_data := get_json request in
  (Ok (jsonify (dict [("message", PStr "Schematic saved successfully");
                      ("id", PStr "temp_id")])), st).

(** [POST /api/schematic] from the request as it arrives: an exception of
    [request.get_json()] leaves the view before anything else is done;
    otherwise the view goes on as [save_schematic] with the parsed body. *)
Definition post_schematic (posted : Posted) : view := fun st =>
  match request_get_json posted with
  | Ok payload => save_schematic {| json := payload |} st
  | Raise e => (Raise e, st)
  end.

(** [GET /api/schematic/<schematic_id>] *)
Definition get_schematic (schematic_id : string) : view := fun st =>
  let sample_schematic :=
    dict [("id", PStr schematic_id);
          ("name", PStr "Sample P&ID");
          ("components", PList []);
          ("connections", PList [])] in
  (Ok (jsonify sample_schematic), st).

(** ** The exposed operations as a transition system *)

Inductive op : Type :=
| ListTypes
| GetType (component_id : string)
| SaveSchematic (posted : Posted)
| GetSchematic (schematic_id : string).

Definition step (o : op) : view :=
  match o with
  | ListTypes => get_components
  | GetType component_id => get_component component_id
  | SaveSchematic posted => post_schematic posted
  | GetSchematic schematic_id => get_schematic schematic_id
  end.

(** Serve a sequence of requests, collecting the outcomes in order. *)
Fixpoint run (ops : list op) (st : State) : list (result Response) * State :=
  match ops with
  | [] => ([], st)
  | o :: ops' =>
      let (r, st1) := step o st in
      let (rs, st2) := run ops' st1 in
      (r :: rs, st2)
  end.

(** ** Named answers and predicates of the claims *)

(** What the claim asks of one catalog entry stored under key [k]: its [id]
    is [k], and it carries a parameters mapping, a connections mapping and a
    list of constraint strings. *)
Definition is_component_type (k : string) (c : pyval) : Prop :=
  field c "id" = Some (PStr k) /\
  (exists ps, field c "parameters" = Some (PDict ps)) /\
  (exists cs, field c "connections" = Some (PDict cs)) /\
  (exists l, field c "constraints" = Some (strs l)).

(** The 404 answer of [get_component]. *)
Definition NotFound : Response :=
  {| status := 404; body := PDict [("error", PStr "Component not found")] |}.

(** The constant answer of [save_schematic]. *)
Definition saved : Response :=
  {| status := 200;
     body := PDict [("message", PStr "Schematic saved successfully");
                    ("id", PStr "temp_id")] |}.

(** The placeholder answer of [get_schematic]. *)
Definition sample (schematic_id : string) : Response :=
  {| status := 200;
     body := PDict [("id", PStr schematic_id);
                    ("name", PStr "Sample P&ID");
                    ("components", PList []);
                    ("connections", PList [])] |}.

(** A parameter's default agrees with its options: when the parameter has
    an [options] list and a [value] other than [None], the value is one of
    the options. *)
Definition default_in_options (spec : pyval) : Prop :=
  forall opts v,
    field spec "options" = Some (PList opts) ->
    field spec "value" = Some v ->
    v <> PNone ->
    In v opts.

(** A port is well formed: its [type] is one of the three connection types
    and its [direction] is [in] or [out]. *)
Definition port_ok (p : pyval) : Prop :=
  (exists t, field p "type" = Some (PStr t) /\
             In t ["pipe"; "signal"; "electrical"]) /\
  (exists d, field p "direction" = Some (PStr d) /\ In d ["in"; "out"]).

(** ** The specification's validation report, for comparison *)

(** These definitions follow the words of the specification, not the code:
    the module has no validation engine.  They say what an answer of the
    save operation would have to look like to be a validation report, and
    which payloads schematic construction is asked to reject. *)
Module Spec.

Inductive verdict : Type := Pass | Fail | Unresolvable.
Inductive connectivity_issue : Type :=
| MissingConnection
| IncompatibleConnection.
Inductive overall : Type := Valid | Invalid | Incomplete.

Definition is_fail (v : verdict) : bool :=
  match v with Fail => true | _ => false end.
Definition is_unresolvable (v : verdict) : bool :=
  match v with Unresolvable => true | _ => false end.
Definition is_incompatible (i : connectivity_issue) : bool :=
  match i with IncompatibleConnection => true | _ => false end.
Definition is_missing (i : connectivity_issue) : bool :=
  match i with MissingConnection => true | _ => false end.

(** The three-way status of section 4.6. *)
Definition overall_status (issues : list connectivity_issue)
           (results : list verdict) : overall :=
  if existsb is_fail results || existsb is_incompatible issues then Invalid
  else if existsb is_unresolvable results || existsb is_missing issues
       then Incomplete
       else Valid.

Definition overall_name (s : overall) : string :=
  match s with
  | Valid => "Valid"
  | Invalid => "Invalid"
  | Incomplete => "Incomplete"
  end.

(** A body is a validation report with status [s] when its
    [overall_status] field holds the name of [s]. *)
Definition reports (v : pyval) (s : overall) : Prop :=
  field v "overall_status" = Some (PStr (overall_name s)).

(** The raw instances of a payload: the items of its [components] list. *)
Definition raw_instances (payload : pyval) : list pyval :=
  match field payload "components" with
  | Some (PList l) => l
  | _ => []
  end.

Definition has_unknown_type (catalog : Dict.t pyval) (payload : pyval) : bool :=
  existsb (fun inst =>
             match field inst "type" with
             | Some (PStr t) => negb (Dict.mem catalog t)
             | _ => false
             end)
          (raw_instances payload).

Definition instance_ids (payload : pyval) : list string :=
  flat_map (fun inst =>
              match field inst "id" with
              | Some (PStr i) => [i]
              | _ => []
              end)
           (raw_instances payload).

Fixpoint has_duplicate (l : list string) : bool :=
  match l with
  | [] => false
  | x :: l' => existsb (String.eqb x) l' || has_duplicate l'
  end.

Definition has_duplicate_instance_id (payload : pyval) : bool :=
  has_duplicate (instance_ids payload).

End Spec.

(** An outcome is an acceptance when the handler returns status 200 with a
    body that has no [error] field. *)
Definition accepted (out : result Response) : Prop :=
  exists r, out = Ok r /\ status r = 200 /\ field (body r) "error" = None.

(** Sample payloads, in the shape of the placeholder schematic. *)

(** Two tanks wired inlet to inlet: an incompatible connection. *)
Definition inlet_to_inlet : Request :=
  {| json := dict [
       ("id", PStr "s1");
       ("name", PStr "Two tanks");
       ("components", PList [
          dict [("id", PStr "T1"); ("type", PStr "tank")];
          dict [("id", PStr "T2"); ("type", PStr "tank")]]);
       ("connections", PList [
          dict [("from", dict [("instance", PStr "T1"); ("port", PStr "inlet")]);
                ("to", dict [("instance", PStr "T2"); ("port", PStr "inlet")])]])
     ] |}.

(** An instance of a type that the catalog does not know. *)
Definition unknown_type : Request :=
  {| json := dict [
       ("components", PList [dict [("id", PStr "R1"); ("type", PStr "reactor")]]);
       ("connections", PList [])
     ] |}.

(** Two instances under one instance id. *)
Definition duplicate_id : Request :=
  {| json := dict [
       ("components", PList [
          dict [("id", PStr "T1"); ("type", PStr "tank")];
          dict [("id", PStr "T1"); ("type", PStr "pump")]]);
       ("connections", PList [])
     ] |}.

(** ** Predicates for further properties of the catalog *)

(** Typed views on values. *)
Definition as_str (v : pyval) : option string :=
  match v with
  | PStr s => Some s
  | _ => None
  end.

Fixpoint all_strs (l : list pyval) : option (list string) :=
  match l with
  | [] => Some []
  | v :: l' =>
      match as_str v, all_strs l' with
      | Some s, Some ss => Some (s :: ss)
      | _, _ => None
      end
  end.

(** The options of a parameter, when it declares a list of strings. *)
Definition options_of (spec : pyval) : option (list string) :=
  match field spec "options" with
  | Some (PList l) => all_strs l
  | _ => None
  end.

(** The two shapes a parameter takes in the catalog.  A measured quantity
    has a unit and no options; a choice has a non-empty list of distinct
    options, no unit, and one of the options as its default. *)
Definition is_quantity (spec : pyval) : Prop :=
  (exists u, field spec "unit" = Some (PStr u)) /\
  field spec "options" = None.

Definition is_choice (spec : pyval) : Prop :=
  field spec "unit" = None /\
  exists o os default,
    options_of spec = Some (o :: os) /\
    NoDup (o :: os) /\
    field spec "value" = Some (PStr default) /\
    In default (o :: os).

Definition parameter_shape (spec : pyval) : Prop :=
  (exists v, field spec "value" = Some v) /\
  (exists b, field spec "required" = Some (PBool b)) /\
  (is_quantity spec \/ is_choice spec).

(** A component can sit in a chain: it has an input port and an output port
    of one connection type. *)
Definition has_through_path (cs : Dict.t pyval) : Prop :=
  exists t pin pi pout po,
    In (pin, pi) cs /\ In (pout, po) cs /\
    field pi "type" = Some (PStr t) /\ field pi "direction" = Some (PStr "in") /\
    field po "type" = Some (PStr t) /\ field po "direction" = Some (PStr "out").

(** The words of a constraint: maximal runs of characters other than the
    space, as [str.split(" ")] without the empty pieces. *)
Fixpoint split_spaces (cur : string) (s : string) : list string :=
  match s with
  | EmptyString => [cur]
  | String c s' =>
      if Ascii.eqb c " "%char
      then cur :: split_spaces "" s'
      else split_spaces (cur ++ String c "") s'
  end.

Definition words (s : string) : list string :=
  filter (fun w => negb (String.eqb w "")) (split_spaces "" s).

(** The keys every catalog entry is written with, in order. *)
Definition entry_keys : list string :=
  ["id"; "name"; "category"; "icon"; "parameters"; "connections"; "constraints"].

Definition nonempty_str_field (c : pyval) (k : string) : Prop :=
  exists s, field c k = Some (PStr s) /\ s <> "".

(** ** Proof automation *)

(** Case analysis on membership in a list that is written out. *)
Ltac in_cases H :=
  simpl in H;
  repeat (destruct H as [H|H]; [injection H as <- <- |]);
  try contradiction.

(** Case analysis on membership in a written-out list of strings. *)
Ltac str_cases H :=
  simpl in H;
  repeat (destruct H as [H|H]; [injection H as <- |]);
  try contradiction.

(** Case analysis over the five catalog entries. *)
Ltac catalog_cases H :=
  unfold COMPONENTS, Dict.literal in H; in_cases H.

(** ** Facts about dictionaries *)

Section DictFacts.
Context {A : Type}.
Implicit Types (d : Dict.t A) (k : string) (v : A).

Lemma mem_true_get d k :
  Dict.mem d k = true <-> exists v, Dict.get d k = Some v.
Proof.
  induction d as [|[k' v'] d IH]; simpl.
  - split; [discriminate | intros [v H]; discriminate].
  - destruct (String.eqb k k'); [|exact IH].
    split; [intros _; now exists v' | reflexivity].
Qed.

Lemma mem_false_get d k :
  Dict.mem d k = false <-> Dict.get d k = None.
Proof.
  induction d as [|[k' v'] d IH]; simpl.
  - split; reflexivity.
  - destruct (String.eqb k k'); [|exact IH].
    split; discriminate.
Qed.

Lemma mem_In_keys d k :
  Dict.mem d k = true <-> In k (Dict.keys d).
Proof.
  induction d as [|[k' v'] d IH]; simpl.
  - split; [discriminate | contradiction].
  - destruct (String.eqb_spec k k') as [->|Hne].
    + split; auto.
    + rewrite IH. split; [now right|].
      intros [Heq|Hin]; [now subst|assumption].
Qed.

Lemma get_In d k v :
  Dict.get d k = Some v -> In (k, v) d.
Proof.
  induction d as [|[k' v'] d IH]; simpl; [discriminate|].
  destruct (String.eqb_spec k k') as [->|Hne].
  - intros [= ->]. now left.
  - intros H. right. now apply IH.
Qed.

(** Assignment to a fresh key appends; keys stay pairwise distinct. *)
Lemma set_fresh d k v :
  Dict.mem d k = false -> Dict.set d k v = (d ++ [(k, v)])%list.
Proof.
  induction d as [|[k' v'] d IH]; simpl; [reflexivity|].
  destruct (String.eqb k k'); [discriminate|].
  intros H. now rewrite IH.
Qed.

Lemma keys_set d k v :
  Dict.keys (Dict.set d k v) =
  if Dict.mem d k then Dict.keys d else (Dict.keys d ++ [k])%list.
Proof.
  induction d as [|[k' v'] d IH]; simpl; [reflexivity|].
  destruct (String.eqb k k'); simpl; [reflexivity|].
  rewrite IH. now destruct (Dict.mem d k).
Qed.

Lemma NoDup_keys_set d k v :
  NoDup (Dict.keys d) -> NoDup (Dict.keys (Dict.set d k v)).
Proof.
  intros Hnd. rewrite keys_set.
  destruct (Dict.mem d k) eqn:Hmem; [assumption|].
  apply NoDup_app; [assumption | repeat constructor; simpl; tauto |].
  intros x Hx [<-|[]].
  apply mem_In_keys in Hx. congruence.
Qed.

(** Every dictionary display evaluates to a dictionary with pairwise
    distinct keys, whatever is written between the braces. *)
Lemma NoDup_keys_literal (items : list (string * A)) :
  NoDup (Dict.keys (Dict.literal items)).
Proof.
  unfold Dict.literal.
  assert (H : forall acc : Dict.t A, NoDup (Dict.keys acc) ->
            NoDup (Dict.keys
              (fold_left (fun d kv => Dict.set d (fst kv) (snd kv)) items acc))).
  { induction items as [|[k v] items IH]; simpl; intros acc Hacc.
    - assumption.
    - apply IH. now apply NoDup_keys_set. }
  apply H. constructor.
Qed.

(** A display that repeats no key evaluates to its items as written. *)
Lemma literal_distinct (items : list (string * A)) :
  NoDup (map fst items) -> Dict.literal items = items.
Proof.
  unfold Dict.literal.
  assert (H : forall acc : Dict.t A, NoDup (map fst (acc ++ items)%list) ->
            fold_left (fun d kv => Dict.set d (fst kv) (snd kv)) items acc
            = (acc ++ items)%list).
  { induction items as [|[k v] items IH]; simpl; intros acc Hnd.
    - now rewrite app_nil_r.
    - rewrite set_fresh.
      + rewrite IH; rewrite <- app_assoc; simpl; [reflexivity | assumption].
      + destruct (Dict.mem acc k) eqn:Hmem; [|reflexivity].
        apply mem_In_keys in Hmem. unfold Dict.keys in Hmem.
        rewrite map_app in Hnd. simpl in Hnd.
        apply NoDup_remove_2 in Hnd. exfalso. apply Hnd.
        apply in_or_app. now left. }
  intros Hnd. now apply (H []).
Qed.
End DictFacts.

(** ** The catalog as data *)

(** No display of the catalog repeats a key: the dictionary holds the five
    entries in the order they are written. *)
Lemma COMPONENTS_items :
  COMPONENTS =
  [("tank", tank); ("control_valve", control_valve); ("pump", pump);
   ("level_controller", level_controller); ("pipe", pipe)].
Proof. reflexivity. Qed.

(** ** Handlers, one equation each *)

Lemma get_component_present st component_id c :
  Dict.get (g_COMPONENTS st) component_id = Some c ->
  get_component component_id st = (Ok (jsonify c), st).
Proof.
  intros Hget. unfold get_component, subscript.
  assert (Hmem : Dict.mem (g_COMPONENTS st) component_id = true)
    by (apply mem_true_get; eauto).
  now rewrite Hmem, Hget.
Qed.

Lemma get_component_absent st component_id :
  Dict.get (g_COMPONENTS st) component_id = None ->
  get_component component_id st = (Ok NotFound, st).
Proof.
  intros Hget. unfold get_component.
  apply mem_false_get in Hget. now rewrite Hget.
Qed.

Lemma save_schematic_eq request st :
  save_schematic request st = (Ok saved, st).
Proof. reflexivity. Qed.

Lemma get_schematic_eq schematic_id st :
  get_schematic schematic_id st = (Ok (sample schematic_id), st).
Proof. reflexivity. Qed.

(** No handler writes the module global. *)
Lemma post_schematic_parsed posted payload st :
  request_get_json posted = Ok payload ->
  post_schematic posted st = save_schematic {| json := payload |} st.
Proof. intros H. unfold post_schematic. now rewrite H. Qed.

Lemma post_schematic_raises posted e st :
  request_get_json posted = Raise e ->
  post_schematic posted st = (Raise e, st).
Proof. intros H. unfold post_schematic. now rewrite H. Qed.

Lemma step_state o st : snd (step o st) = st.
Proof.
  destruct o as [|component_id|posted|schematic_id]; simpl; try reflexivity.
  - unfold get_component. now destruct (Dict.mem _ _).
  - unfold post_schematic. now destruct (request_get_json posted).
Qed.

Lemma run_state ops st : snd (run ops st) = st.
Proof.
  revert st. induction ops as [|o ops IH]; intros st; simpl; [reflexivity|].
  pose proof (step_state o st) as Hs.
  destruct (step o st) as [r st1]. simpl in Hs. subst st1.
  specialize (IH st). destruct (run ops st) as [rs st2]. exact IH.
Qed.

(** ** Claims *)

(** C1, as stated, fails: for the schematic with two tanks wired inlet to
    inlet the answer of [save_schematic] is not a validation report under
    any overall status; in particular it is not the [Invalid] report that an
    incompatible connection calls for. *)
Lemma save_schematic_is_no_report :
  Spec.overall_status [Spec.IncompatibleConnection] [] = Spec.Invalid /\
  ~ (exists r s, fst (save_schematic inlet_to_inlet startup) = Ok r /\
                 Spec.reports (body r) s).
Proof.
  split; [reflexivity|].
  intros [r [s [Hr Hs]]].
  rewrite save_schematic_eq in Hr. injection Hr as <-.
  unfold Spec.reports in Hs. simpl in Hs. discriminate.
Qed.

(** C1, amended.  For every schematic submitted to [save_schematic] the
    answer is the success acknowledgement, status 200 with body
    [{"message": "Schematic saved successfully", "id": "temp_id"}]: it has
    no [overall_status] field and so is a validation report under none of
    [Valid], [Invalid], [Incomplete], whatever constraints and connections
    the payload holds. *)
Theorem save_schematic_reports_no_status :
  forall (request : Request) (st : State),
    fst (save_schematic request st) = Ok saved /\
    status saved = 200 /\
    field (body saved) "message" = Some (PStr "Schematic saved successfully") /\
    field (body saved) "id" = Some (PStr "temp_id") /\
    field (body saved) "overall_status" = None /\
    (forall s, ~ Spec.reports (body saved) s).
Proof.
  intros request st.
  split; [apply (f_equal fst (save_schematic_eq request st))|].
  repeat (split; [reflexivity|]).
  intros s Hs. unfold Spec.reports in Hs. simpl in Hs. discriminate.
Qed.

(** C2, as stated, fails: a payload with an instance of the unknown type
    [reactor] and a payload with two instances named [T1] are both
    accepted. *)
Lemma save_schematic_accepts_defects :
  (Spec.has_unknown_type COMPONENTS (json unknown_type) = true /\
   accepted (fst (save_schematic unknown_type startup))) /\
  (Spec.has_duplicate_instance_id (json duplicate_id) = true /\
   accepted (fst (save_schematic duplicate_id startup))).
Proof.
  split; (split; [reflexivity|]); exists saved; repeat split.
Qed.

(** C2, amended.  For every posted payload that [request.get_json()]
    returns, one with an unknown component type id or a duplicate instance
    id included, the view does not reject: it answers as [save_schematic]
    does on the parsed body, with status 200, the success acknowledgement
    and no error body, and it builds and stores no schematic. *)
Theorem post_schematic_rejects_no_parsed_payload :
  forall (posted : Posted) (payload : pyval) (st : State),
    request_get_json posted = Ok payload ->
    fst (post_schematic posted st) = Ok saved /\
    accepted (fst (post_schematic posted st)) /\
    snd (post_schematic posted st) = st.
Proof.
  intros posted payload st Hjson.
  rewrite (post_schematic_parsed _ _ _ Hjson), save_schematic_eq. simpl.
  split; [reflexivity|]. split; [|reflexivity].
  exists saved. repeat split.
Qed.

(** The payload with the unknown type [reactor], posted as JSON. *)
Lemma post_schematic_rejects_no_parsed_payload_witness :
  Spec.has_unknown_type COMPONENTS (json unknown_type) = true /\
  accepted (fst (post_schematic (JsonBody (json unknown_type)) startup)).
Proof.
  split; [reflexivity|].
  apply (post_schematic_rejects_no_parsed_payload
           (JsonBody (json unknown_type)) (json unknown_type) startup eq_refl).
Defined.

(** C3.  For every component type id, [get_component] answers with the
    catalog's definition of that id (status 200) exactly when the id is a
    key of the catalog, and with the 404 error body exactly when it is not;
    it never raises.  Stated for an arbitrary state of the module global,
    hence in particular for the catalog loaded at startup. *)
Theorem get_component_found_iff_key :
  forall (st : State) (component_id : string),
    let out := fst (get_component component_id st) in
    (In component_id (Dict.keys (g_COMPONENTS st)) <->
       exists c, Dict.get (g_COMPONENTS st) component_id = Some c /\
                 out = Ok (jsonify c)) /\
    (~ In component_id (Dict.keys (g_COMPONENTS st)) <-> out = Ok NotFound) /\
    (forall r, out = Ok r ->
       (status r = 200 <-> In component_id (Dict.keys (g_COMPONENTS st))) /\
       (status r = 404 <-> ~ In component_id (Dict.keys (g_COMPONENTS st)))) /\
    (forall e, out <> Raise e).
Proof.
  intros st component_id out. subst out.
  destruct (Dict.get (g_COMPONENTS st) component_id) as [c|] eqn:Hget.
  - assert (Hin : In component_id (Dict.keys (g_COMPONENTS st)))
      by (apply mem_In_keys, mem_true_get; eauto).
    rewrite (get_component_present _ _ _ Hget). simpl.
    split; [|split; [|split]].
    + split; [intros _; eauto | intros _; exact Hin].
    + split; [intros Hn; contradiction | discriminate].
    + intros r [= <-]. simpl.
      split; split; try (intros; assumption || reflexivity || contradiction).
      discriminate.
    + discriminate.
  - assert (Hin : ~ In component_id (Dict.keys (g_COMPONENTS st))).
    { intros Hin. apply mem_In_keys, mem_true_get in Hin.
      destruct Hin as [v Hv]. congruence. }
    rewrite (get_component_absent _ _ Hget). simpl.
    split; [|split; [|split]].
    + split; [intros Hi; contradiction | intros [c [Hc _]]; discriminate].
    + split; [reflexivity | intros _; exact Hin].
    + intros r [= <-]. simpl.
      split; split; try (intros; assumption || reflexivity || contradiction).
      discriminate.
    + discriminate.
Qed.

(** C4.  The catalog holds exactly the five component types [tank],
    [control_valve], [pump], [level_controller] and [pipe], in this order;
    every entry is stored under its own [id] and carries a parameters
    mapping, a connections mapping and a list of constraint strings; and
    [get_components] answers 200 with exactly this dictionary. *)
Theorem catalog_has_exactly_five_types :
  Dict.keys COMPONENTS =
    ["tank"; "control_valve"; "pump"; "level_controller"; "pipe"] /\
  Dict.values COMPONENTS =
    [tank; control_valve; pump; level_controller; pipe] /\
  Forall (fun kc => is_component_type (fst kc) (snd kc)) COMPONENTS /\
  get_components startup = (Ok (jsonify (PDict COMPONENTS)), startup) /\
  (forall r, fst (get_components startup) = Ok r ->
     status r = 200 /\
     forall k, field (body r) k = Dict.get COMPONENTS k).
Proof.
  split; [reflexivity|]. split; [reflexivity|].
  split; [|split; [reflexivity|]].
  - rewrite COMPONENTS_items.
    repeat constructor; simpl; eexists; reflexivity.
  - intros r [= <-]. split; reflexivity.
Qed.

(** C5.  For every JSON payload [save_schematic] gives the same answer:
    status 200 with body
    [{"message": "Schematic saved successfully", "id": "temp_id"}].  The
    answer does not depend on the payload, and nothing is stored: the state
    after the call is the state before it. *)
Theorem save_schematic_constant :
  forall (request : Request) (st : State),
    save_schematic request st = (Ok saved, st) /\
    field (body saved) "message" = Some (PStr "Schematic saved successfully") /\
    field (body saved) "id" = Some (PStr "temp_id") /\
    Dict.keys (match body saved with PDict d => d | _ => [] end)
      = ["message"; "id"] /\
    (forall request' st',
       fst (save_schematic request' st') = fst (save_schematic request st)).
Proof.
  intros request st. repeat split.
Qed.

(** C6.  For every component type of the catalog and every parameter of
    it: if the parameter declares options and a default value that is not
    [None], the default is a member of the options. *)
Theorem catalog_defaults_in_options :
  forall (tid : string) (c : pyval) (ps : Dict.t pyval)
         (pname : string) (spec : pyval),
    In (tid, c) COMPONENTS ->
    field c "parameters" = Some (PDict ps) ->
    In (pname, spec) ps ->
    default_in_options spec.
Proof.
  intros tid c ps pname spec Hc Hps Hspec.
  catalog_cases Hc; vm_compute in Hps; injection Hps as <-;
    in_cases Hspec;
    intros opts v Hopts Hv Hnone;
    vm_compute in Hopts; vm_compute in Hv;
    try discriminate Hopts;
    injection Hopts as <-; injection Hv as <-;
    simpl; auto.
Qed.

(** The tank's [material] parameter: its default [carbon_steel] is among
    its options. *)
Lemma catalog_defaults_in_options_witness :
  In ("tank", tank) COMPONENTS /\
  In (PStr "carbon_steel")
     [PStr "carbon_steel"; PStr "stainless_steel"; PStr "plastic"].
Proof.
  split; [left; reflexivity|].
  eapply (catalog_defaults_in_options "tank" tank _ "material").
  - left; reflexivity.
  - reflexivity.
  - do 3 right; left; reflexivity.
  - reflexivity.
  - reflexivity.
  - discriminate.
Defined.

(** C7.  For every component type of the catalog: the names of its ports
    are pairwise distinct, and every declared port has a connection type
    among [pipe], [signal], [electrical] and a direction [in] or [out]. *)
Theorem catalog_ports_well_formed :
  forall (tid : string) (c : pyval) (cs : Dict.t pyval),
    In (tid, c) COMPONENTS ->
    field c "connections" = Some (PDict cs) ->
    NoDup (Dict.keys cs) /\
    forall (pname : string) (p : pyval), In (pname, p) cs -> port_ok p.
Proof.
  intros tid c cs Hc Hcs.
  catalog_cases Hc; vm_compute in Hcs; injection Hcs as <-.
  all: split;
    [ repeat constructor; simpl; intuition discriminate
    | intros pname p Hp; in_cases Hp;
      (split; eexists; (split; [reflexivity | simpl; tauto])) ].
Qed.

(** The pump: three distinct port names, and its [power] port is an
    electrical input. *)
Lemma catalog_ports_well_formed_witness :
  In ("pump", pump) COMPONENTS /\
  NoDup ["suction"; "discharge"; "power"] /\
  port_ok (dict [("type", PStr "electrical"); ("direction", PStr "in")]).
Proof.
  split; [do 2 right; left; reflexivity|].
  destruct (catalog_ports_well_formed "pump" pump
              [("suction", dict [("type", PStr "pipe"); ("direction", PStr "in")]);
               ("discharge", dict [("type", PStr "pipe"); ("direction", PStr "out")]);
               ("power", dict [("type", PStr "electrical"); ("direction", PStr "in")])])
    as [Hnd Hports].
  - do 2 right; left; reflexivity.
  - reflexivity.
  - split; [exact Hnd|].
    apply (Hports "power"). do 2 right; left; reflexivity.
Defined.

(** C8.  No exposed operation writes the catalog.  After any sequence of
    list-types, get-type, save-schematic and get-schematic requests the
    module global is the dictionary loaded at startup, so a definition served
    at that point is the one that would have been served at startup. *)
Theorem catalog_never_mutated :
  forall (ops : list op),
    snd (run ops startup) = startup /\
    g_COMPONENTS (snd (run ops startup)) = COMPONENTS /\
    (forall component_id,
       fst (get_component component_id (snd (run ops startup)))
       = fst (get_component component_id startup)) /\
    fst (get_components (snd (run ops startup))) = Ok (jsonify (PDict COMPONENTS)).
Proof.
  intros ops. rewrite run_state. repeat split.
Qed.

(** C9.  Two invocations of [save_schematic] on the same payload give equal
    answers, whatever the state and whatever is served in between; under any
    serialiser [dumps] of the body the two answers are the same bytes. *)
Theorem save_schematic_twice_equal :
  forall (dumps : pyval -> string) (request : Request) (st : State)
         (between : list op),
    let first := save_schematic request st in
    let second := save_schematic request (snd (run between (snd first))) in
    fst first = fst second /\
    (forall r1 r2, fst first = Ok r1 -> fst second = Ok r2 ->
       status r1 = status r2 /\ dumps (body r1) = dumps (body r2)) /\
    snd second = st.
Proof.
  intros dumps request st between first second. subst first second.
  rewrite !save_schematic_eq. simpl. rewrite run_state.
  split; [reflexivity|]. split; [|reflexivity].
  intros r1 r2 [= <-] [= <-]. split; reflexivity.
Qed.

(** C10.  For every schematic id [get_schematic] answers 200 with a
    schematic whose [id] is the requested id, whose [name] is
    ["Sample P&ID"] and whose [components] and [connections] are empty
    lists.  The answer is the same in every state and after any earlier
    requests, saves of a schematic included: nothing stored is read. *)
Theorem get_schematic_placeholder :
  forall (schematic_id : string) (st : State),
    get_schematic schematic_id st = (Ok (sample schematic_id), st) /\
    field (body (sample schematic_id)) "id" = Some (PStr schematic_id) /\
    field (body (sample schematic_id)) "name" = Some (PStr "Sample P&ID") /\
    field (body (sample schematic_id)) "components" = Some (PList []) /\
    field (body (sample schematic_id)) "connections" = Some (PList []) /\
    (forall ops,
       fst (get_schematic schematic_id (snd (run ops st)))
       = Ok (sample schematic_id)).
Proof.
  intros schematic_id st. repeat split.
Qed.

(** ** Further properties of the handlers *)

(** Shared facts. *)

Lemma run_cons o ops st :
  fst (run (o :: ops) st) = fst (step o st) :: fst (run ops st).
Proof.
  simpl. pose proof (step_state o st) as Hs.
  destruct (step o st) as [r st1]. simpl in Hs. subst st1.
  now destruct (run ops st).
Qed.

Lemma startup_keys :
  Dict.keys (g_COMPONENTS startup) =
  ["tank"; "control_valve"; "pump"; "level_controller"; "pipe"].
Proof. reflexivity. Qed.

Lemma catalog_entry_typed tid c :
  In (tid, c) COMPONENTS -> is_component_type tid c.
Proof.
  intros Hc. catalog_cases Hc;
    (split; [reflexivity|]); repeat split; eexists; reflexivity.
Qed.

(** X1.  The single-type lookup agrees with the list-all answer in every
    state: [get_component] serves the value that the body of
    [get_components] holds under the requested id, and the 404 answer when
    that body has no such key. *)
Theorem get_component_agrees_with_get_components :
  forall (st : State) (component_id : string),
    exists all r,
      fst (get_components st) = Ok all /\
      fst (get_component component_id st) = Ok r /\
      match field (body all) component_id with
      | Some c => r = jsonify c
      | None => r = NotFound
      end.
Proof.
  intros st component_id.
  exists (jsonify (PDict (g_COMPONENTS st))). simpl.
  destruct (Dict.get (g_COMPONENTS st) component_id) as [c|] eqn:Hget.
  - exists (jsonify c). rewrite (get_component_present _ _ _ Hget). auto.
  - exists NotFound. rewrite (get_component_absent _ _ Hget). auto.
Qed.

(** X2.  What an exposed operation can end in, in every state.  It
    raises only when it is a POST whose [request.get_json()] raises, and
    then with that very exception, 400 or 415; a [KeyError] never leaves a
    view.  Otherwise it answers, with status 404 exactly for a get-type
    request whose id is not a key of the catalog and with status 200 in
    every other case. *)
Theorem step_outcome :
  forall (o : op) (st : State),
    (forall e, fst (step o st) = Raise e <->
       exists posted, o = SaveSchematic posted /\
                      request_get_json posted = Raise e) /\
    (forall e, fst (step o st) = Raise e ->
       e = BadRequest \/ e = UnsupportedMediaType) /\
    (forall r, fst (step o st) = Ok r ->
       (status r = 404 <->
          exists component_id,
            o = GetType component_id /\
            ~ In component_id (Dict.keys (g_COMPONENTS st))) /\
       (status r <> 404 -> status r = 200)) /\
    ((exists r, fst (step o st) = Ok r) \/ (exists e, fst (step o st) = Raise e)).
Proof.
  intros o st. destruct o as [|component_id|posted|schematic_id]; simpl.
  - split; [|split; [|split]].
    + intros e. split; [discriminate | intros [p [Hp _]]; discriminate].
    + discriminate.
    + intros r [= <-]. simpl.
      split; [split; [discriminate | intros [i [Hi _]]; discriminate] | reflexivity].
    + left. eexists. reflexivity.
  - destruct (Dict.get (g_COMPONENTS st) component_id) as [c|] eqn:Hget.
    + rewrite (get_component_present _ _ _ Hget). simpl.
      split; [|split; [|split]].
      * intros e. split; [discriminate | intros [p [Hp _]]; discriminate].
      * discriminate.
      * intros r [= <-]. simpl.
        split; [split; [discriminate|] | reflexivity].
        intros [i [[= <-] Hi]]. exfalso. apply Hi.
        apply mem_In_keys, mem_true_get. eauto.
      * left. eexists. reflexivity.
    + rewrite (get_component_absent _ _ Hget). simpl.
      split; [|split; [|split]].
      * intros e. split; [discriminate | intros [p [Hp _]]; discriminate].
      * discriminate.
      * intros r [= <-]. simpl.
        split; [split; [intros _ | reflexivity] | intros H; now contradiction H].
        exists component_id. split; [reflexivity|].
        intros Hin. apply mem_In_keys, mem_true_get in Hin.
        destruct Hin as [v Hv]. congruence.
      * left. eexists. reflexivity.
  - destruct posted as [payload| |]; simpl.
    + split; [|split; [|split]].
      * intros e. split; [discriminate|].
        intros [p [[= <-] Hp]]. discriminate.
      * discriminate.
      * intros r [= <-]. simpl.
        split; [split; [discriminate | intros [i [Hi _]]; discriminate] | reflexivity].
      * left. eexists. reflexivity.
    + split; [|split; [|split]].
      * intros e. split.
        -- intros [= <-]. exists MalformedBody. split; reflexivity.
        -- intros [p [[= <-] Hp]]. simpl in Hp. now injection Hp as <-.
      * intros e [= <-]. now left.
      * discriminate.
      * right. eexists. reflexivity.
    + split; [|split; [|split]].
      * intros e. split.
        -- intros [= <-]. exists OtherContentType. split; reflexivity.
        -- intros [p [[= <-] Hp]]. simpl in Hp. now injection Hp as <-.
      * intros e [= <-]. now right.
      * discriminate.
      * right. eexists. reflexivity.
  - split; [|split; [|split]].
    + intros e. split; [discriminate | intros [p [Hp _]]; discriminate].
    + discriminate.
    + intros r [= <-]. simpl.
      split; [split; [discriminate | intros [i [Hi _]]; discriminate] | reflexivity].
    + left. eexists. reflexivity.
Qed.

(** A POST with a body that does not parse leaves the view with 400. *)
Lemma step_outcome_witness :
  fst (step (SaveSchematic MalformedBody) startup) = Raise BadRequest /\
  (BadRequest = BadRequest \/ BadRequest = UnsupportedMediaType).
Proof.
  split; [reflexivity|].
  apply (proj1 (proj2 (step_outcome (SaveSchematic MalformedBody) startup))
           BadRequest eq_refl).
Defined.

(** X3.  The service is stateless towards its clients: in a sequence of
    requests each one is answered as if it were served alone, so the answers
    to a concatenation are the answers to its parts. *)
Theorem run_answers_pointwise :
  forall (ops : list op) (st : State),
    fst (run ops st) = map (fun o => fst (step o st)) ops /\
    forall ops', fst (run (ops ++ ops') st)
                 = (fst (run ops st) ++ fst (run ops' st))%list.
Proof.
  assert (Hmap : forall ops st,
             fst (run ops st) = map (fun o => fst (step o st)) ops).
  { induction ops as [|o ops IH]; intros st; [reflexivity|].
    rewrite run_cons, IH. reflexivity. }
  intros ops st. split; [apply Hmap|].
  intros ops'. rewrite !Hmap. apply map_app.
Qed.

(** X4.  Saving and loading do not round-trip.  The id that
    [save_schematic] hands back for a payload with at least one component
    makes [get_schematic] answer the placeholder, whose component list is
    empty and which therefore differs from the payload that was saved. *)
Theorem saved_schematic_is_not_retrieved :
  forall (request : Request) (st : State) (c : pyval) (cs : list pyval),
    field (json request) "components" = Some (PList (c :: cs)) ->
    exists r sid r',
      fst (save_schematic request st) = Ok r /\
      field (body r) "id" = Some (PStr sid) /\
      fst (get_schematic sid (snd (save_schematic request st))) = Ok r' /\
      field (body r') "components" = Some (PList []) /\
      body r' <> json request.
Proof.
  intros request st c cs Hcomp.
  exists saved, "temp_id", (sample "temp_id").
  repeat (split; [reflexivity|]).
  intros Heq. rewrite <- Heq in Hcomp. simpl in Hcomp. discriminate.
Qed.

(** The two tanks of [inlet_to_inlet] are saved and not found again. *)
Lemma saved_schematic_is_not_retrieved_witness :
  exists r', fst (get_schematic "temp_id" startup) = Ok r' /\
             body r' <> json inlet_to_inlet.
Proof.
  destruct (saved_schematic_is_not_retrieved inlet_to_inlet startup
              (dict [("id", PStr "T1"); ("type", PStr "tank")])
              [dict [("id", PStr "T2"); ("type", PStr "tank")]] eq_refl)
    as [r [sid [r' [Hr [Hsid [Hr' [_ Hne]]]]]]].
  exists r'. split; [|exact Hne].
  simpl in Hr. injection Hr as <-. simpl in Hsid. injection Hsid as <-.
  exact Hr'.
Defined.

(** ** Further properties of the catalog *)

Lemma existsb_mem_keys (ps : Dict.t pyval) (ws : list string) :
  existsb (Dict.mem ps) ws = true ->
  exists w, In w ws /\ In w (Dict.keys ps).
Proof.
  intros H. apply existsb_exists in H. destruct H as [w [Hw Hm]].
  exists w. split; [assumption | now apply mem_In_keys].
Qed.

(** X5.  With the catalog loaded at startup, [get_component] answers 200
    for exactly the five ids [tank], [control_valve], [pump],
    [level_controller] and [pipe], and the definition it serves carries the
    requested id together with its parameters, connections and constraints;
    every other id gets the 404 answer. *)
Theorem get_component_at_startup :
  forall (component_id : string),
    (In component_id
        ["tank"; "control_valve"; "pump"; "level_controller"; "pipe"] /\
     exists c, fst (get_component component_id startup) = Ok (jsonify c) /\
               is_component_type component_id c) \/
    (~ In component_id
         ["tank"; "control_valve"; "pump"; "level_controller"; "pipe"] /\
     fst (get_component component_id startup) = Ok NotFound).
Proof.
  intros component_id.
  destruct (Dict.get (g_COMPONENTS startup) component_id) as [c|] eqn:Hget.
  - left. rewrite (get_component_present _ _ _ Hget).
    split.
    + rewrite <- startup_keys. apply mem_In_keys, mem_true_get. eauto.
    + exists c. split; [reflexivity|].
      apply catalog_entry_typed. now apply get_In.
  - right. rewrite (get_component_absent _ _ Hget).
    split; [|reflexivity].
    rewrite <- startup_keys. intros Hin.
    apply mem_In_keys, mem_true_get in Hin. destruct Hin as [v Hv]. congruence.
Qed.

(** X6.  At startup the body alone tells the outcome of [get_component]:
    it has an [error] field exactly when the status is 404 and an [id]
    field, equal to the requested id, exactly when the status is 200.  No
    catalog entry has an [error] key. *)
Theorem get_component_body_tells_outcome :
  forall (component_id : string),
    exists r,
      fst (get_component component_id startup) = Ok r /\
      (status r = 404 <-> exists m, field (body r) "error" = Some m) /\
      (status r = 200 <-> field (body r) "id" = Some (PStr component_id)).
Proof.
  intros component_id.
  destruct (Dict.get (g_COMPONENTS startup) component_id) as [c|] eqn:Hget.
  - rewrite (get_component_present _ _ _ Hget).
    exists (jsonify c). split; [reflexivity|].
    apply get_In in Hget. simpl in Hget. catalog_cases Hget; simpl;
      (split; split;
         [ discriminate | intros [m Hm]; vm_compute in Hm; discriminate
         | intros _; reflexivity | intros _; reflexivity ]).
  - rewrite (get_component_absent _ _ Hget).
    exists NotFound. split; [reflexivity|]. simpl.
    split; split;
      [ intros _; eexists; reflexivity | intros _; reflexivity
      | discriminate | discriminate ].
Qed.

(** X7.  Every parameter of every catalog type has a [value] and a boolean
    [required] flag, and is of one of two shapes: a quantity with a unit and
    no options, or a choice without unit whose options are a non-empty list
    of distinct strings and whose default is one of them. *)
Theorem catalog_parameter_shapes :
  forall (tid : string) (c : pyval) (ps : Dict.t pyval)
         (pname : string) (spec : pyval),
    In (tid, c) COMPONENTS ->
    field c "parameters" = Some (PDict ps) ->
    In (pname, spec) ps ->
    parameter_shape spec.
Proof.
  intros tid c ps pname spec Hc Hps Hspec.
  catalog_cases Hc; vm_compute in Hps; injection Hps as <-;
    in_cases Hspec;
    (split; [eexists; reflexivity|]);
    (split; [eexists; reflexivity|]);
    first
      [ left; split; [eexists; reflexivity | reflexivity]
      | right; split; [reflexivity|];
        do 3 eexists;
        split; [reflexivity|];
        split; [repeat constructor; simpl; intuition discriminate|];
        split; [reflexivity | simpl; tauto] ].
Qed.

(** The pump's [efficiency] is a quantity, the tank's [material] a
    choice. *)
Lemma catalog_parameter_shapes_witness :
  In ("pump", pump) COMPONENTS /\
  parameter_shape
    (dict [("value", PInt 75); ("unit", PStr "%"); ("required", PBool false)]).
Proof.
  split; [do 2 right; left; reflexivity|].
  eapply (catalog_parameter_shapes "pump" pump _ "efficiency").
  - do 2 right; left; reflexivity.
  - reflexivity.
  - do 3 right; left; reflexivity.
Defined.

(** X8.  Every catalog type can sit in a chain: it declares an input port
    and an output port of one and the same connection type. *)
Theorem catalog_types_have_through_path :
  forall (tid : string) (c : pyval) (cs : Dict.t pyval),
    In (tid, c) COMPONENTS ->
    field c "connections" = Some (PDict cs) ->
    has_through_path cs.
Proof.
  intros tid c cs Hc Hcs.
  catalog_cases Hc; vm_compute in Hcs; injection Hcs as <-;
    do 5 eexists;
    (split; [left; reflexivity|]);
    (split; [right; left; reflexivity|]);
    repeat split; reflexivity.
Qed.

(** The level controller passes a signal through. *)
Lemma catalog_types_have_through_path_witness :
  In ("level_controller", level_controller) COMPONENTS /\
  has_through_path
    [("measurement", dict [("type", PStr "signal"); ("direction", PStr "in")]);
     ("output", dict [("type", PStr "signal"); ("direction", PStr "out")])].
Proof.
  split; [do 3 right; left; reflexivity|].
  apply (catalog_types_have_through_path "level_controller" level_controller).
  - do 3 right; left; reflexivity.
  - reflexivity.
Defined.

(** X9.  Every constraint of every catalog type names at least one
    parameter of that very type among its words. *)
Theorem catalog_constraints_name_a_parameter :
  forall (tid : string) (c : pyval) (ps : Dict.t pyval)
         (ks : list pyval) (k : string),
    In (tid, c) COMPONENTS ->
    field c "parameters" = Some (PDict ps) ->
    field c "constraints" = Some (PList ks) ->
    In (PStr k) ks ->
    exists w, In w (words k) /\ In w (Dict.keys ps).
Proof.
  intros tid c ps ks k Hc Hps Hks Hk.
  catalog_cases Hc; vm_compute in Hps; injection Hps as <-;
    vm_compute in Hks; injection Hks as <-;
    str_cases Hk;
    apply existsb_mem_keys; reflexivity.
Qed.

(** The pump's third constraint names [npsh_required], as its last word. *)
Lemma catalog_constraints_name_a_parameter_witness :
  In ("pump", pump) COMPONENTS /\
  exists w, In w (words "npsh_available > npsh_required") /\
            In w ["flow_rate"; "head"; "power"; "efficiency"; "npsh_required"].
Proof.
  split; [do 2 right; left; reflexivity|].
  refine (catalog_constraints_name_a_parameter "pump" pump
            (match field pump "parameters" with Some (PDict ps) => ps | _ => [] end)
            (match field pump "constraints" with Some (PList ks) => ks | _ => [] end)
            "npsh_available > npsh_required" _ _ _ _).
  - do 2 right; left; reflexivity.
  - reflexivity.
  - reflexivity.
  - do 2 right; left; reflexivity.
Defined.

(** X10.  Every catalog entry is a dictionary with the same seven keys in
    the same order, and its [name], [category] and [icon] are non-empty
    strings. *)
Theorem catalog_entries_uniform :
  forall (tid : string) (c : pyval),
    In (tid, c) COMPONENTS ->
    (exists d, c = PDict d /\ Dict.keys d = entry_keys) /\
    nonempty_str_field c "name" /\
    nonempty_str_field c "category" /\
    nonempty_str_field c "icon".
Proof.
  intros tid c Hc.
  catalog_cases Hc;
    (split; [eexists; split; reflexivity|]);
    repeat split; eexists; (split; [reflexivity | discriminate]).
Qed.

(** The pipe entry. *)
Lemma catalog_entries_uniform_witness :
  In ("pipe", pipe) COMPONENTS /\ nonempty_str_field pipe "icon".
Proof.
  split; [do 4 right; left; reflexivity|].
  apply (catalog_entries_uniform "pipe" pipe).
  do 4 right; left; reflexivity.
Defined.
